(** * giotto-learn: the bottleneck-distance binding

    A verification model of [gtda/externals/bindings/bottleneck_bindings.cpp]:
    the C++ function [bottleneck_distance], which dispatches on its tolerance
    to one of the two entry points of the hera library, and the pybind11
    module [gtda_bottleneck] that exposes it to Python with a default
    tolerance.

    Doubles are IEEE binary64 values, given by the Standard Library's
    [spec_float]; comparisons are the IEEE ones of [SpecFloat]. *)

From Stdlib Require Import ZArith Bool List String Lia.
From Stdlib Require Import Sorting.Permutation.
From Stdlib Require Import Floats.SpecFloat.
Import ListNotations.

Local Open Scope Z_scope.
Local Open Scope string_scope.
Local Open Scope list_scope.
Set Warnings "-register-all".

(** ** C++ [double] *)

Module Double.

Definition t : Type := spec_float.

Definition prec : Z := 53.
Definition emax : Z := 1024.

(** [operator==] on doubles: IEEE equality. A NaN equals nothing, the two
    zeros equal each other. *)
Definition eqb (x y : t) : bool := SFeqb x y.
Definition ltb (x y : t) : bool := SFltb x y.
Definition leb (x y : t) : bool := SFleb x y.

(** The literal [0.0]. *)
Definition zero : t := S754_zero false.
Definition neg_zero : t := S754_zero true.
Definition nan : t := S754_nan.
Definition infinity : t := S754_infinity false.

(** Conversion of an [int] to [double], as in [return -1;]. *)
Definition of_int (z : Z) : t := binary_normalize prec emax z 0 false.

(** The literal [0.01]: the binary64 value nearest to 1/100,
    [0x1.47ae147ae147bp-7]. *)
Definition lit_0_01 : t := S754_finite false 5764607523034235 (-59).


Definition one : t := Eval vm_compute in of_int 1.
Definition minus_one : t := Eval vm_compute in of_int (-1).

Definition is_finite (x : t) : bool :=
  match x with
  | S754_zero _ | S754_finite _ _ _ => true
  | S754_infinity _ | S754_nan => false
  end.

(** Finite and [0.0 <= x]. *)
Definition finite_nonneg (x : t) : bool := is_finite x && leb zero x.

Definition eq_dec (x y : t) : {x = y} + {x <> y}.
Proof.
  decide equality;
    first [ apply Bool.bool_dec | apply Pos.eq_dec | apply Z.eq_dec ].
Defined.

End Double.

Definition double : Type := Double.t.

(** ** Persistence diagrams: [std::vector<std::pair<double, double>>] *)

Definition point : Type := double * double.
Definition diagram : Type := list point.

Definition birth (p : point) : double := fst p.
Definition death (p : point) : double := snd p.

(** A diagram of the data model: every coordinate is a finite number. *)
Definition finite_point (p : point) : bool :=
  Double.is_finite (birth p) && Double.is_finite (death p).
Definition valid_diagram (d : diagram) : bool := forallb finite_point d.

Definition point_eq_dec (p q : point) : {p = q} + {p <> q}.
Proof. decide equality; apply Double.eq_dec. Defined.

Definition diagram_eq_dec (a b : diagram) : {a = b} + {a <> b} :=
  list_eq_dec point_eq_dec a b.

(** ** The hera library, as the binding sees it

    [hera::bottleneckDistExact] and [hera::bottleneckDistApprox] are called
    with the two vectors passed by (non-const) reference: a call hands back a
    double or throws, and leaves some contents in the two vectors. *)

Inductive outcome : Type :=
| Returns (v : double)
| Throws (what : string).

Record hera_result : Type := mk_hera_result {
  result : outcome;
  left_A : diagram;
  left_B : diagram
}.

Class Hera : Type := {
  bottleneckDistExact : diagram -> diagram -> hera_result;
  bottleneckDistApprox : diagram -> diagram -> double -> hera_result
}.

(** A call into the library, as recorded in the call log. *)
Inductive hera_call : Type :=
| CallExact (A B : diagram)
| CallApprox (A B : diagram) (delta : double).



Definition invoke {L : Hera} (c : hera_call) : hera_result :=
  match c with
  | CallExact A B => bottleneckDistExact A B
  | CallApprox A B delta => bottleneckDistApprox A B delta
  end.

(** ** Statements of the function body

    The activation record of [bottleneck_distance]: its three parameters and,
    as ghost state, the log of library calls made so far. *)

Record frame : Type := mk_frame {
  dgm1 : diagram;
  dgm2 : diagram;
  delta : double;
  calls : list hera_call
}.

(** How a statement ends: control falls through to the next statement, the
    function returns a value (tagged with the source line of the [return]),
    or an exception propagates. *)
Inductive exit : Type :=
| Fallthrough
| Return (line : nat) (v : double)
| Throw (what : string).

Definition stmt : Type := frame -> exit * frame.

Definition Seq (s1 s2 : stmt) : stmt :=
  fun f =>
    match s1 f with
    | (Fallthrough, f') => s2 f'
    | r => r
    end.

Definition IfElse (c : frame -> bool) (s1 s2 : stmt) : stmt :=
  fun f => if c f then s1 f else s2 f.

Definition exit_of (line : nat) (o : outcome) : exit :=
  match o with
  | Returns v => Return line v
  | Throws what => Throw what
  end.

(** [return hera::f(dgm1, dgm2, ...);] *)
Definition ReturnCall {L : Hera} (line : nat) (c : frame -> hera_call) : stmt :=
  fun f =>
    let r := invoke (c f) in
    (exit_of line (result r),
     {| dgm1 := left_A r; dgm2 := left_B r; delta := delta f;
        calls := calls f ++ [c f] |}).

(** [return e;] for an expression without effects. *)
Definition ReturnValue (line : nat) (e : frame -> double) : stmt :=
  fun f => (Return line (e f), f).

(** ** [bottleneck_distance] (lines 14-22) *)

Definition line_exact : nat := 18.
Definition line_approx : nat := 20.
Definition line_sentinel : nat := 21.

Definition bottleneck_distance_body {L : Hera} : stmt :=
  Seq
    (IfElse (fun f => Double.eqb (delta f) Double.zero)
       (ReturnCall line_exact (fun f => CallExact (dgm1 f) (dgm2 f)))
       (ReturnCall line_approx
          (fun f => CallApprox (dgm1 f) (dgm2 f) (delta f))))
    (ReturnValue line_sentinel (fun _ => Double.of_int (-1))).

Definition bottleneck_distance {L : Hera}
  (dgm1 dgm2 : diagram) (delta : double) : exit * frame :=
  bottleneck_distance_body
    {| dgm1 := dgm1; dgm2 := dgm2; delta := delta; calls := [] |}.

(** What the caller of the C++ function observes. *)
Definition exit_status {L : Hera} (d1 d2 : diagram) (delta : double) : exit :=
  fst (bottleneck_distance d1 d2 delta).

Definition calls_made {L : Hera} (d1 d2 : diagram) (delta : double)
  : list hera_call :=
  calls (snd (bottleneck_distance d1 d2 delta)).

Definition returned_value (e : exit) : option double :=
  match e with
  | Return _ v => Some v
  | Fallthrough | Throw _ => None
  end.

Definition return_line (e : exit) : option nat :=
  match e with
  | Return line _ => Some line
  | Fallthrough | Throw _ => None
  end.

(** The branch taken for a given tolerance, for use in statements: the call
    made and the line of the [return] that makes it. *)
Definition selected_call (d1 d2 : diagram) (delta : double) : hera_call :=
  if Double.eqb delta Double.zero
  then CallExact d1 d2
  else CallApprox d1 d2 delta.

Definition selected_line (delta : double) : nat :=
  if Double.eqb delta Double.zero then line_exact else line_approx.

(** ** The pybind11 module [gtda_bottleneck] (lines 26-32)

    The fragment of Python values the binding can be called with: floats,
    tuples, lists (mutable, held in the object store and passed by address)
    and [None], which no caster of this binding accepts. *)

Inductive py_object : Type :=
| PyFloat (d : double)
| PyTuple (items : list py_object)
| PyList (addr : nat)
| PyNone.

(** Contents of the list objects, by address. *)
Definition py_store : Type := list (list py_object).

Inductive py_exception : Type :=
| TypeError
| Translated (what : string).

Inductive py_result : Type :=
| PyReturn (o : py_object)
| PyRaise (e : py_exception)
| PyUndefined.

(** The casters of [pybind11/pybind11.h] and [pybind11/stl.h]: they read the
    Python object and build a C++ value of their own. *)

Definition as_sequence (st : py_store) (o : py_object)
  : option (list py_object) :=
  match o with
  | PyTuple items => Some items
  | PyList addr => nth_error st addr
  | PyFloat _ | PyNone => None
  end.

Definition load_double (o : py_object) : option double :=
  match o with
  | PyFloat d => Some d
  | PyTuple _ | PyList _ | PyNone => None
  end.

Definition load_pair (st : py_store) (o : py_object) : option point :=
  match as_sequence st o with
  | Some [x; y] =>
      match load_double x, load_double y with
      | Some b, Some d => Some (b, d)
      | _, _ => None
      end
  | _ => None
  end.

Fixpoint load_items (st : py_store) (items : list py_object)
  : option diagram :=
  match items with
  | [] => Some []
  | o :: rest =>
      match load_pair st o, load_items st rest with
      | Some p, Some ps => Some (p :: ps)
      | _, _ => None
      end
  end.

Definition load_vector (st : py_store) (o : py_object) : option diagram :=
  match as_sequence st o with
  | Some items => load_items st items
  | None => None
  end.

(** The argument records of [m.def]: ["dgm1"_a, "dgm2"_a,
    py::arg("delta") = 0.01]. *)

Record argument_record : Type := mk_argument {
  arg_name : string;
  arg_default : option py_object
}.

Definition signature : list argument_record :=
  [ {| arg_name := "dgm1"; arg_default := None |};
    {| arg_name := "dgm2"; arg_default := None |};
    {| arg_name := "delta";
       arg_default := Some (PyFloat Double.lit_0_01) |} ].

Record py_arguments : Type := mk_py_arguments {
  positional : list py_object;
  keywords : list (string * py_object)
}.

Fixpoint lookup_keyword (name : string) (kw : list (string * py_object))
  : option py_object :=
  match kw with
  | [] => None
  | (k, v) :: rest =>
      if String.eqb k name then Some v else lookup_keyword name rest
  end.

Fixpoint remove_keyword (name : string) (kw : list (string * py_object))
  : list (string * py_object) :=
  match kw with
  | [] => []
  | (k, v) :: rest =>
      if String.eqb k name
      then remove_keyword name rest
      else (k, v) :: remove_keyword name rest
  end.

(** The dispatcher fills the parameters from the positional arguments, then
    by keyword, then from the defaults; a missing argument, a surplus
    positional argument or a keyword left over is a [TypeError]. *)
Fixpoint bind_arguments (sig : list argument_record)
  (pos : list py_object) (kw : list (string * py_object))
  : option (list py_object) :=
  match sig with
  | [] =>
      match pos, kw with
      | [], [] => Some []
      | _, _ => None
      end
  | a :: sig' =>
      match pos with
      | p :: pos' => option_map (cons p) (bind_arguments sig' pos' kw)
      | [] =>
          match lookup_keyword (arg_name a) kw with
          | Some v =>
              option_map (cons v)
                (bind_arguments sig' [] (remove_keyword (arg_name a) kw))
          | None =>
              match arg_default a with
              | Some v => option_map (cons v) (bind_arguments sig' [] kw)
              | None => None
              end
          end
      end
  end.

Definition to_python (e : exit) : py_result :=
  match e with
  | Return _ v => PyReturn (PyFloat v)
  | Throw what => PyRaise (Translated what)
  | Fallthrough => PyUndefined
  end.

(** The Python function [gtda_bottleneck.bottleneck_distance]. *)
Definition py_bottleneck_distance {L : Hera}
  (st : py_store) (a : py_arguments) : py_result * py_store :=
  match bind_arguments signature (positional a) (keywords a) with
  | Some [o1; o2; o3] =>
      match load_vector st o1, load_vector st o2, load_double o3 with
      | Some v1, Some v2, Some d => (to_python (exit_status v1 v2 d), st)
      | _, _, _ => (PyRaise TypeError, st)
      end
  | _ => (PyRaise TypeError, st)
  end.

(** The tolerance the C++ function receives when the caller gives none. *)
Definition default_delta : option double :=
  match bind_arguments signature [PyNone; PyNone] [] with
  | Some [_; _; o3] => load_double o3
  | _ => None
  end.

(** ** The contract of the hera library

    The library's code is not part of these sources
    ([<bottleneck/include/bottleneck.h>] is only included). What the binding's
    documentation promises about distances rests on the four properties
    below, which the theorems about distances take as hypotheses. *)

(** Modelled from the spec: hera's entry points are missing from the sources;
    "guaranteed finite and non-negative by the external library's contract".
    Stated for the calls the binding makes. *)
Definition results_finite_nonneg (L : Hera) : Prop :=
  forall (A B : diagram) (t v : double),
    result (invoke (selected_call A B t)) = Returns v ->
    Double.finite_nonneg v = true.

(** Modelled from the spec: hera's [bottleneckDistExact] is missing from the
    sources; "symmetry of the exact computation", for valid diagrams, as the
    comparison [==] of the two returned distances. *)
Definition exact_symmetric (L : Hera) : Prop :=
  forall A B : diagram,
    valid_diagram A = true -> valid_diagram B = true ->
    exists v w : double,
      result (bottleneckDistExact A B) = Returns v /\
      result (bottleneckDistExact B A) = Returns w /\
      Double.eqb v w = true.

(** Modelled from the spec: hera's [bottleneckDistExact] is missing from the
    sources; "[compute_distance(A, A, 0.0) == 0.0] for any diagram [A]
    (identity)": the exact distance of any diagram to itself compares equal
    to [0.0]. *)
Definition exact_identity (L : Hera) : Prop :=
  forall A : diagram,
    exists v : double,
      result (bottleneckDistExact A A) = Returns v /\
      Double.eqb v Double.zero = true.

(** Modelled from the spec: hera's entry points are missing from the sources;
    "empty diagrams yield distance 0.0", for the exact entry point and for
    the approximate one at every tolerance it is reached with. *)
Definition empty_distance_zero (L : Hera) : Prop :=
  forall t : double,
    exists v : double,
      result (invoke (selected_call [] [] t)) = Returns v /\
      Double.eqb v Double.zero = true.

(** ** Two libraries to run the binding against

    [discrete_hera] returns the discrete distance (0 between equal diagrams,
    1 otherwise) from both entry points and leaves its arguments alone; it
    satisfies the contract. [hostile_hera] clears both vectors, and its
    approximate entry point throws on a tolerance that is not positive. *)

Definition discrete_distance (A B : diagram) : hera_result :=
  {| result :=
       Returns (if diagram_eq_dec A B then Double.zero else Double.one);
     left_A := A;
     left_B := B |}.

Definition discrete_hera : Hera :=
  {| bottleneckDistExact := discrete_distance;
     bottleneckDistApprox := fun A B _ => discrete_distance A B |}.

Definition hostile_hera : Hera :=
  {| bottleneckDistExact := fun _ _ =>
       {| result := Returns Double.minus_one; left_A := []; left_B := [] |};
     bottleneckDistApprox := fun _ _ t =>
       {| result :=
            if Double.ltb Double.zero t
            then Returns Double.infinity
            else Throws "epsilon must be positive";
          left_A := [];
          left_B := [] |} |}.

(** Sample data. *)
Definition dgm_unit : diagram := [(Double.zero, Double.one)].
Definition dgm_two : diagram :=
  [(Double.zero, Double.one); (Double.lit_0_01, Double.one)].
Definition dgm_nan : diagram := [(Double.nan, Double.infinity)].

Definition sample_store : py_store :=
  [ [PyTuple [PyFloat Double.zero; PyFloat Double.one]];
    [] ].

Definition call2 (o1 o2 : py_object) : py_arguments :=
  {| positional := [o1; o2]; keywords := [] |}.

Definition call3 (o1 o2 o3 : py_object) : py_arguments :=
  {| positional := [o1; o2; o3]; keywords := [] |}.

Definition call2_delta (o1 o2 o3 : py_object) : py_arguments :=
  {| positional := [o1; o2]; keywords := [("delta", o3)] |}.

(** The two vectors a call is given. *)
Definition call_A (c : hera_call) : diagram :=
  match c with CallExact A _ | CallApprox A _ _ => A end.

Definition call_B (c : hera_call) : diagram :=
  match c with CallExact _ B | CallApprox _ B _ => B end.

(** A Python call that gives no [delta]: at most the two diagrams by
    position, and no keyword of that name. *)
Definition names_delta (kv : string * py_object) : bool :=
  String.eqb (fst kv) "delta".

Definition omits_delta (a : py_arguments) : bool :=
  (List.length (positional a) <=? 2)%nat &&
  negb (existsb names_delta (keywords a)).

(** The same call with [delta=o] added. *)
Definition with_delta (a : py_arguments) (o : py_object) : py_arguments :=
  {| positional := positional a;
     keywords := keywords a ++ [("delta", o)] |}.

(** The names of the parameters, in the order of [m.def]. *)
Definition parameter_names : list string := map arg_name signature.




(** * Properties *)

(** ** IEEE comparisons against [0.0] *)

Lemma eqb_neg_zero_zero : Double.eqb Double.neg_zero Double.zero = true.
Proof. reflexivity. Qed.

Lemma eqb_nan_l (x : double) : Double.eqb Double.nan x = false.
Proof. destruct x; reflexivity. Qed.

Lemma ltb_zero_not_eqb (x : double) :
  Double.ltb x Double.zero = true -> Double.eqb x Double.zero = false.
Proof.
  unfold Double.ltb, Double.eqb, SFltb, SFeqb.
  destruct (SFcompare x Double.zero) as [[ | | ] | ]; congruence.
Qed.

Lemma ltb_zero_not_eqb' (x : double) :
  Double.ltb Double.zero x = true -> Double.eqb x Double.zero = false.
Proof.
  destruct x as [s | s | | s m e]; try destruct s; cbn; congruence.
Qed.


Lemma finite_nonneg_not_minus_one (v : double) :
  Double.finite_nonneg v = true -> Double.eqb v Double.minus_one = false.
Proof.
  unfold Double.finite_nonneg, Double.minus_one, Double.eqb, Double.leb,
    SFeqb, SFleb.
  destruct v as [[ | ] | [ | ] | | [ | ] m e];
    first [ intros _; reflexivity | intros H; discriminate H ].
Qed.

(** ** The function body, statement by statement *)

Section Adapter.

Context {L : Hera}.

Lemma exit_of_not_fallthrough (line : nat) (o : outcome) :
  exit_of line o <> Fallthrough.
Proof. destruct o; discriminate. Qed.

(** A statement that does not fall through hides what follows it. *)
Lemma Seq_no_fallthrough (s1 s2 : stmt) (f : frame) :
  fst (s1 f) <> Fallthrough -> Seq s1 s2 f = s1 f.
Proof.
  unfold Seq. destruct (s1 f) as [[ | line v | what] f']; cbn; intros H.
  - now contradiction H.
  - reflexivity.
  - reflexivity.
Qed.

Lemma ReturnCall_no_fallthrough (line : nat) (c : frame -> hera_call)
  (f : frame) :
  fst (ReturnCall line c f) <> Fallthrough.
Proof. unfold ReturnCall; cbn. apply exit_of_not_fallthrough. Qed.

Lemma IfElse_no_fallthrough (c : frame -> bool) (s1 s2 : stmt) (f : frame) :
  fst (s1 f) <> Fallthrough -> fst (s2 f) <> Fallthrough ->
  fst (IfElse c s1 s2 f) <> Fallthrough.
Proof. unfold IfElse. now destruct (c f). Qed.

(** The whole function, in one equation: one call, chosen by [delta == 0.0],
    decides how it ends and what is left in the two vectors. *)
Lemma bottleneck_distance_eq (d1 d2 : diagram) (t : double) :
  bottleneck_distance d1 d2 t =
    let c := selected_call d1 d2 t in
    (exit_of (selected_line t) (result (invoke c)),
     {| dgm1 := left_A (invoke c); dgm2 := left_B (invoke c);
        delta := t; calls := [c] |}).
Proof.
  unfold bottleneck_distance, bottleneck_distance_body.
  rewrite Seq_no_fallthrough
    by (apply IfElse_no_fallthrough; apply ReturnCall_no_fallthrough).
  unfold IfElse, selected_call, selected_line; cbn.
  destruct (Double.eqb t Double.zero); reflexivity.
Qed.

Lemma exit_status_eq (d1 d2 : diagram) (t : double) :
  exit_status d1 d2 t =
    exit_of (selected_line t) (result (invoke (selected_call d1 d2 t))).
Proof. unfold exit_status. now rewrite bottleneck_distance_eq. Qed.

Lemma calls_made_eq (d1 d2 : diagram) (t : double) :
  calls_made d1 d2 t = [selected_call d1 d2 t].
Proof. unfold calls_made. now rewrite bottleneck_distance_eq. Qed.

Lemma exit_status_zero (d1 d2 : diagram) (t : double) :
  Double.eqb t Double.zero = true ->
  exit_status d1 d2 t =
    exit_of line_exact (result (bottleneckDistExact d1 d2)).
Proof.
  intros H. rewrite exit_status_eq.
  unfold selected_line, selected_call. now rewrite H.
Qed.

Lemma exit_status_nonzero (d1 d2 : diagram) (t : double) :
  Double.eqb t Double.zero = false ->
  exit_status d1 d2 t =
    exit_of line_approx (result (bottleneckDistApprox d1 d2 t)).
Proof.
  intros H. rewrite exit_status_eq.
  unfold selected_line, selected_call. now rewrite H.
Qed.

End Adapter.

(** ** Which entry point is called *)


(** C2. The [return -1;] of line 21 is never reached. Whatever the inputs,
    the function ends in the [return] of line 18 when [delta == 0.0] and in
    that of line 20 otherwise (a NaN tolerance included), with the value or
    the exception of that one library call: control never falls through the
    [if]/[else], and no return comes from line 21. *)
Theorem sentinel_return_unreachable
  (L : Hera) (d1 d2 : diagram) (t : double) :
  exit_status d1 d2 t =
    exit_of (if Double.eqb t Double.zero then line_exact else line_approx)
      (result (invoke (if Double.eqb t Double.zero
                       then CallExact d1 d2
                       else CallApprox d1 d2 t))) /\
  return_line (exit_status d1 d2 t) <> Some line_sentinel /\
  exit_status d1 d2 t <> Fallthrough /\
  List.length (calls_made d1 d2 t) = 1%nat /\
  exit_status d1 d2 Double.nan =
    exit_of line_approx (result (bottleneckDistApprox d1 d2 Double.nan)).
Proof.
  assert (Hnan : Double.eqb Double.nan Double.zero = false) by reflexivity.
  split; [ | split; [ | split; [ | split ] ] ].
  - apply exit_status_eq.
  - rewrite exit_status_eq. unfold selected_line.
    destruct (result _) as [v | what]; cbn.
    + destruct (Double.eqb t Double.zero); intros H; inversion H.
    + discriminate.
  - rewrite exit_status_eq. apply exit_of_not_fallthrough.
  - now rewrite calls_made_eq.
  - now apply exit_status_nonzero.
Qed.

(** C9. The negative zero compares equal to [0.0], so [delta = -0.0] selects
    the exact entry point, and the call ends as the one with [0.0] does. *)
Theorem negative_zero_selects_exact (L : Hera) (d1 d2 : diagram) :
  Double.eqb Double.neg_zero Double.zero = true /\
  calls_made d1 d2 Double.neg_zero = [CallExact d1 d2] /\
  exit_status d1 d2 Double.neg_zero =
    exit_of line_exact (result (bottleneckDistExact d1 d2)) /\
  bottleneck_distance d1 d2 Double.neg_zero =
    (fst (bottleneck_distance d1 d2 Double.zero),
     {| dgm1 := dgm1 (snd (bottleneck_distance d1 d2 Double.zero));
        dgm2 := dgm2 (snd (bottleneck_distance d1 d2 Double.zero));
        delta := Double.neg_zero;
        calls := calls (snd (bottleneck_distance d1 d2 Double.zero)) |}).
Proof.
  pose proof eqb_neg_zero_zero as Hz.
  split; [ exact Hz | split; [ | split ] ].
  - rewrite calls_made_eq. unfold selected_call. now rewrite Hz.
  - now apply exit_status_zero.
  - rewrite !bottleneck_distance_eq.
    unfold selected_call, selected_line. rewrite Hz. reflexivity.
Qed.

(** C10. The tolerance is not validated. For every [delta] that does not
    compare equal to [0.0] the approximate entry point is called with that
    very [delta], and the function ends as that call does: it returns the
    call's value, and an exception leaves it only when the call threw it.
    A NaN and every negative number are such tolerances. *)
Theorem nonzero_delta_forwarded_unvalidated
  (L : Hera) (d1 d2 : diagram) (t : double) :
  Double.eqb t Double.zero = false ->
  calls_made d1 d2 t = [CallApprox d1 d2 t] /\
  exit_status d1 d2 t =
    exit_of line_approx (result (bottleneckDistApprox d1 d2 t)) /\
  (forall what : string,
     exit_status d1 d2 t = Throw what ->
     result (bottleneckDistApprox d1 d2 t) = Throws what) /\
  (forall v : double,
     result (bottleneckDistApprox d1 d2 t) = Returns v ->
     exit_status d1 d2 t = Return line_approx v) /\
  Double.eqb Double.nan Double.zero = false /\
  (forall s : double,
     Double.ltb s Double.zero = true -> Double.eqb s Double.zero = false).
Proof.
  intros Ht.
  pose proof (exit_status_nonzero d1 d2 t Ht) as He.
  repeat split.
  - rewrite calls_made_eq. unfold selected_call. now rewrite Ht.
  - exact He.
  - intros what Hw. rewrite He in Hw.
    destruct (result (bottleneckDistApprox d1 d2 t)); cbn in Hw.
    + discriminate Hw.
    + now inversion Hw.
  - intros v Hv. now rewrite He, Hv.
  - exact ltb_zero_not_eqb.
Qed.

(** The theorem above at the tolerance [-1.0]. *)
Lemma nonzero_delta_forwarded_unvalidated_witness :
  Double.eqb Double.minus_one Double.zero = false /\
  calls_made (L := discrete_hera) dgm_unit dgm_two Double.minus_one =
    [CallApprox dgm_unit dgm_two Double.minus_one].
Proof.
  split.
  - reflexivity.
  - apply (nonzero_delta_forwarded_unvalidated discrete_hera
             dgm_unit dgm_two Double.minus_one).
    reflexivity.
Defined.

(** ** Binding of the arguments *)

Lemma lookup_keyword_app_other (name : string) (o : py_object)
  (kw : list (string * py_object)) :
  String.eqb "delta" name = false ->
  lookup_keyword name (kw ++ [("delta", o)]) = lookup_keyword name kw.
Proof.
  intros Hn. induction kw as [ | [k v] kw IH]; cbn [app lookup_keyword].
  - now rewrite Hn.
  - destruct (String.eqb k name); [ reflexivity | exact IH ].
Qed.

Lemma remove_keyword_app_other (name : string) (o : py_object)
  (kw : list (string * py_object)) :
  String.eqb "delta" name = false ->
  remove_keyword name (kw ++ [("delta", o)]) =
    remove_keyword name kw ++ [("delta", o)].
Proof.
  intros Hn. induction kw as [ | [k v] kw IH]; cbn [app remove_keyword].
  - now rewrite Hn.
  - destruct (String.eqb k name); cbn [app]; now rewrite IH.
Qed.

Lemma names_delta_cons (k : string) (v : py_object)
  (kw : list (string * py_object)) :
  existsb names_delta ((k, v) :: kw) = false ->
  String.eqb k "delta" = false /\ existsb names_delta kw = false.
Proof.
  cbn [existsb]. intros H. apply orb_false_iff in H as [Hk Hkw].
  split; [ exact Hk | exact Hkw ].
Qed.

Lemma remove_keyword_keeps_absent (name : string)
  (kw : list (string * py_object)) :
  existsb names_delta kw = false ->
  existsb names_delta (remove_keyword name kw) = false.
Proof.
  induction kw as [ | [k v] kw IH]; cbn [remove_keyword];
    [ reflexivity | ].
  intros H. apply names_delta_cons in H as [Hk Hkw].
  destruct (String.eqb k name).
  - now apply IH.
  - cbn [existsb]. unfold names_delta at 1. cbn [fst].
    rewrite Hk. now apply IH.
Qed.

Lemma lookup_keyword_absent (kw : list (string * py_object)) :
  existsb names_delta kw = false -> lookup_keyword "delta" kw = None.
Proof.
  induction kw as [ | [k v] kw IH]; cbn [lookup_keyword];
    [ reflexivity | ].
  intros H. apply names_delta_cons in H as [Hk Hkw].
  rewrite Hk. now apply IH.
Qed.

Lemma lookup_keyword_appended (o : py_object)
  (kw : list (string * py_object)) :
  existsb names_delta kw = false ->
  lookup_keyword "delta" (kw ++ [("delta", o)]) = Some o.
Proof.
  induction kw as [ | [k v] kw IH]; cbn [app lookup_keyword];
    [ reflexivity | ].
  intros H. apply names_delta_cons in H as [Hk Hkw].
  rewrite Hk. now apply IH.
Qed.

Lemma remove_keyword_appended (o : py_object)
  (kw : list (string * py_object)) :
  existsb names_delta kw = false ->
  remove_keyword "delta" (kw ++ [("delta", o)]) = kw.
Proof.
  induction kw as [ | [k v] kw IH]; cbn [app remove_keyword];
    [ reflexivity | ].
  intros H. apply names_delta_cons in H as [Hk Hkw].
  rewrite Hk. now rewrite IH.
Qed.

(** Giving the last parameter its own default by keyword changes nothing in
    the binding, as long as the positional arguments do not reach it. *)
Lemma bind_arguments_default_last (o : py_object)
  (sig : list argument_record) :
  Forall (fun a => String.eqb "delta" (arg_name a) = false) sig ->
  forall (pos : list py_object) (kw : list (string * py_object)),
    (List.length pos <= List.length sig)%nat ->
    existsb names_delta kw = false ->
    bind_arguments
      (sig ++ [{| arg_name := "delta"; arg_default := Some o |}])
      pos (kw ++ [("delta", o)]) =
    bind_arguments
      (sig ++ [{| arg_name := "delta"; arg_default := Some o |}])
      pos kw.
Proof.
  induction 1 as [ | a sig Ha Hsig IH]; intros pos kw Hlen Hkw.
  - destruct pos as [ | p pos]; [ | cbn in Hlen; lia ].
    cbn [app bind_arguments arg_name arg_default].
    rewrite lookup_keyword_appended, remove_keyword_appended by assumption.
    now rewrite lookup_keyword_absent by assumption.
  - cbn [app bind_arguments].
    destruct pos as [ | p pos].
    + rewrite lookup_keyword_app_other by assumption.
      destruct (lookup_keyword (arg_name a) kw) as [v | ].
      * rewrite remove_keyword_app_other by assumption.
        rewrite IH; [ reflexivity | cbn; lia | ].
        now apply remove_keyword_keeps_absent.
      * destruct (arg_default a) as [v | ]; [ | reflexivity ].
        rewrite IH; [ reflexivity | cbn; lia | assumption ].
    + cbn in Hlen. rewrite IH; [ reflexivity | lia | assumption ].
Qed.

Lemma bind_arguments_two (o1 o2 : py_object) :
  bind_arguments signature [o1; o2] [] =
    Some [o1; o2; PyFloat Double.lit_0_01].
Proof. reflexivity. Qed.

Lemma default_delta_eq : default_delta = Some Double.lit_0_01.
Proof. reflexivity. Qed.

(** C3. A call that gives no [delta] behaves as the same call with
    [delta=0.01]: the default of the argument record is what the C++
    function receives, so the call takes the approximate path with tolerance
    0.01 and ends as that library call does, for every pair of diagrams. *)
Theorem omitted_delta_behaves_as_0_01
  (L : Hera) (st : py_store) (a : py_arguments) :
  omits_delta a = true ->
  py_bottleneck_distance st a =
    py_bottleneck_distance st (with_delta a (PyFloat Double.lit_0_01)) /\
  default_delta = Some Double.lit_0_01 /\
  (forall o1 o2 : py_object,
     py_bottleneck_distance st (call2 o1 o2) =
       py_bottleneck_distance st (call3 o1 o2 (PyFloat Double.lit_0_01)) /\
     py_bottleneck_distance st (call2 o1 o2) =
       match load_vector st o1, load_vector st o2 with
       | Some v1, Some v2 =>
           (to_python
              (exit_of line_approx
                 (result (bottleneckDistApprox v1 v2 Double.lit_0_01))),
            st)
       | _, _ => (PyRaise TypeError, st)
       end) /\
  (forall v1 v2 : diagram,
     calls_made v1 v2 Double.lit_0_01 =
       [CallApprox v1 v2 Double.lit_0_01]).
Proof.
  intros Ha. unfold omits_delta in Ha.
  apply andb_true_iff in Ha as [Hpos Hkw].
  apply Nat.leb_le in Hpos. apply negb_true_iff in Hkw.
  split; [ | split; [ exact default_delta_eq | split ] ].
  - unfold py_bottleneck_distance, with_delta.
    cbn [positional keywords].
    change signature with
      ([ {| arg_name := "dgm1"; arg_default := None |};
         {| arg_name := "dgm2"; arg_default := None |} ] ++
       [ {| arg_name := "delta";
            arg_default := Some (PyFloat Double.lit_0_01) |} ]).
    rewrite bind_arguments_default_last; [ reflexivity | | exact Hpos | exact Hkw ].
    repeat constructor.
  - intros o1 o2. split; [ reflexivity | ].
    unfold py_bottleneck_distance, call2. cbn [positional keywords].
    rewrite bind_arguments_two. cbn [load_double].
    destruct (load_vector st o1) as [v1 | ]; [ | reflexivity ].
    destruct (load_vector st o2) as [v2 | ]; [ | reflexivity ].
    now rewrite exit_status_nonzero by reflexivity.
  - intros v1 v2. now rewrite calls_made_eq.
Qed.

(** The theorem above at a call with the two diagrams given by keyword. *)
Lemma omitted_delta_behaves_as_0_01_witness :
  omits_delta
    {| positional := [];
       keywords := [("dgm2", PyList 1); ("dgm1", PyList 0)] |} = true /\
  py_bottleneck_distance (L := discrete_hera) sample_store
    {| positional := [];
       keywords := [("dgm2", PyList 1); ("dgm1", PyList 0)] |} =
  py_bottleneck_distance (L := discrete_hera) sample_store
    {| positional := [];
       keywords := [("dgm2", PyList 1); ("dgm1", PyList 0);
                    ("delta", PyFloat Double.lit_0_01)] |}.
Proof.
  split.
  - reflexivity.
  - apply (omitted_delta_behaves_as_0_01 discrete_hera sample_store
             {| positional := [];
                keywords := [("dgm2", PyList 1); ("dgm1", PyList 0)] |}).
    reflexivity.
Defined.

(** ** The diagrams of the caller *)




(** ** Distances, under the library's contract *)

(** The discrete library satisfies the four properties of the contract. *)

Lemma discrete_distance_value (A B : diagram) :
  result (discrete_distance A B) = Returns Double.zero \/
  result (discrete_distance A B) = Returns Double.one.
Proof.
  unfold discrete_distance; cbn [result].
  destruct (diagram_eq_dec A B); [ now left | now right ].
Qed.

Lemma discrete_invoke (c : hera_call) :
  invoke (L := discrete_hera) c = discrete_distance (call_A c) (call_B c).
Proof. destruct c; reflexivity. Qed.

Lemma discrete_results_finite_nonneg : results_finite_nonneg discrete_hera.
Proof.
  intros A B t v. rewrite discrete_invoke.
  destruct (discrete_distance_value
              (call_A (selected_call A B t)) (call_B (selected_call A B t)))
    as [H | H]; rewrite H; intros Hv; inversion Hv; reflexivity.
Qed.

Lemma discrete_exact_symmetric : exact_symmetric discrete_hera.
Proof.
  intros A B _ _. cbn [bottleneckDistExact discrete_hera].
  unfold discrete_distance; cbn [result].
  destruct (diagram_eq_dec A B) as [E | N], (diagram_eq_dec B A) as [E' | N'].
  - exists Double.zero, Double.zero. now repeat split.
  - now contradiction N'.
  - now contradiction N.
  - exists Double.one, Double.one. now repeat split.
Qed.

Lemma discrete_exact_identity : exact_identity discrete_hera.
Proof.
  intros A. cbn [bottleneckDistExact discrete_hera].
  unfold discrete_distance; cbn [result].
  destruct (diagram_eq_dec A A) as [_ | N]; [ | now contradiction N ].
  exists Double.zero. now split.
Qed.

Lemma discrete_empty_distance_zero : empty_distance_zero discrete_hera.
Proof.
  intros t. rewrite discrete_invoke.
  unfold selected_call. exists Double.zero.
  destruct (Double.eqb t Double.zero); now split.
Qed.

(** What a Python call with three positional arguments comes to, once the
    casters have read them. *)
Lemma py_call3_eq (L : Hera) (st : py_store) (o1 o2 : py_object)
  (A B : diagram) (t : double) :
  load_vector st o1 = Some A -> load_vector st o2 = Some B ->
  py_bottleneck_distance st (call3 o1 o2 (PyFloat t)) =
    (to_python (exit_status A B t), st).
Proof.
  intros H1 H2. unfold py_bottleneck_distance, call3.
  cbn [positional keywords].
  change (bind_arguments signature [o1; o2; PyFloat t] [])
    with (Some [o1; o2; PyFloat t]).
  cbn [load_double]. now rewrite H1, H2.
Qed.

(** A Python call that returns an object returns the float the C++ function
    returned. *)
Lemma py_return_inv (L : Hera) (st : py_store) (a : py_arguments)
  (o : py_object) :
  fst (py_bottleneck_distance st a) = PyReturn o ->
  exists (A B : diagram) (t : double) (line : nat) (v : double),
    exit_status A B t = Return line v /\ o = PyFloat v.
Proof.
  unfold py_bottleneck_distance.
  destruct (bind_arguments signature (positional a) (keywords a))
    as [[ | o1 [ | o2 [ | o3 [ | o4 rest]]]] | ]; try discriminate.
  destruct (load_vector st o1) as [A | ]; try discriminate.
  destruct (load_vector st o2) as [B | ]; try discriminate.
  destruct (load_double o3) as [t | ]; try discriminate.
  cbn [fst]. destruct (exit_status A B t) as [ | line v | what] eqn:He;
    cbn [to_python]; intros H; inversion H.
  now exists A, B, t, line, v.
Qed.

(** C4. Under the library's contract (its results are finite and
    non-negative), every value the function returns is finite and
    non-negative: the value is the library's, handed on as it is, and never
    the [-1] of line 21. So a Python call that returns, returns a float that
    is finite, non-negative and not [-1.0]. *)
Theorem returned_value_finite_nonneg (L : Hera) :
  results_finite_nonneg L ->
  (forall (d1 d2 : diagram) (t : double) (line : nat) (v : double),
     exit_status d1 d2 t = Return line v ->
     Double.finite_nonneg v = true /\
     Double.eqb v Double.minus_one = false /\
     line <> line_sentinel /\
     result (invoke (selected_call d1 d2 t)) = Returns v) /\
  (forall (st : py_store) (a : py_arguments) (o : py_object),
     fst (py_bottleneck_distance st a) = PyReturn o ->
     exists v : double,
       o = PyFloat v /\
       Double.finite_nonneg v = true /\
       Double.eqb v Double.minus_one = false).
Proof.
  intros HL.
  assert (Hcpp : forall d1 d2 t line v,
             exit_status d1 d2 t = Return line v ->
             Double.finite_nonneg v = true /\
             Double.eqb v Double.minus_one = false /\
             line <> line_sentinel /\
             result (invoke (selected_call d1 d2 t)) = Returns v).
  { intros d1 d2 t line v He. rewrite exit_status_eq in He.
    destruct (result (invoke (selected_call d1 d2 t))) as [w | what] eqn:Hr;
      cbn [exit_of] in He; [ | discriminate He ].
    inversion He; subst w line; clear He.
    pose proof (HL d1 d2 t v Hr) as Hv.
    repeat split.
    - exact Hv.
    - now apply finite_nonneg_not_minus_one.
    - unfold selected_line.
      destruct (Double.eqb t Double.zero); discriminate. }
  split; [ exact Hcpp | ].
  intros st a o Ho.
  destruct (py_return_inv L st a o Ho) as (A & B & t & line & v & He & ->).
  exists v. destruct (Hcpp A B t line v He) as (Hf & Hm & _).
  now repeat split.
Qed.

(** The theorem above on the discrete library, at tolerance 0.01. *)
Lemma returned_value_finite_nonneg_witness :
  exit_status (L := discrete_hera) dgm_unit dgm_two Double.lit_0_01 =
    Return line_approx Double.one /\
  Double.finite_nonneg Double.one = true /\
  Double.eqb Double.one Double.minus_one = false /\
  line_approx <> line_sentinel /\
  result (invoke (L := discrete_hera)
            (selected_call dgm_unit dgm_two Double.lit_0_01)) =
    Returns Double.one.
Proof.
  split.
  - reflexivity.
  - apply (returned_value_finite_nonneg discrete_hera
             discrete_results_finite_nonneg).
    reflexivity.
Defined.

(** C6. Under the library's contract (the exact distance is symmetric),
    for valid diagrams [A] and [B] the calls with [(A, B, 0.0)] and
    [(B, A, 0.0)] both return, from line 18, and the two returned values
    compare equal; these are the floats the two Python calls return. *)
Theorem exact_path_symmetric (L : Hera) (A B : diagram) :
  exact_symmetric L ->
  valid_diagram A = true -> valid_diagram B = true ->
  exists v w : double,
    exit_status A B Double.zero = Return line_exact v /\
    exit_status B A Double.zero = Return line_exact w /\
    Double.eqb v w = true /\
    (forall (st : py_store) (o1 o2 : py_object),
       load_vector st o1 = Some A -> load_vector st o2 = Some B ->
       py_bottleneck_distance st (call3 o1 o2 (PyFloat Double.zero)) =
         (PyReturn (PyFloat v), st) /\
       py_bottleneck_distance st (call3 o2 o1 (PyFloat Double.zero)) =
         (PyReturn (PyFloat w), st)).
Proof.
  intros HL HA HB.
  destruct (HL A B HA HB) as (v & w & Hv & Hw & Hvw).
  assert (Hab : exit_status A B Double.zero = Return line_exact v)
    by (rewrite exit_status_zero by reflexivity; now rewrite Hv).
  assert (Hba : exit_status B A Double.zero = Return line_exact w)
    by (rewrite exit_status_zero by reflexivity; now rewrite Hw).
  exists v, w. repeat split; try assumption.
  - rewrite (py_call3_eq L st o1 o2 A B) by assumption. now rewrite Hab.
  - rewrite (py_call3_eq L st o2 o1 B A) by assumption. now rewrite Hba.
Qed.

(** The theorem above on the discrete library. *)
Lemma exact_path_symmetric_witness :
  valid_diagram dgm_unit = true /\ valid_diagram dgm_two = true /\
  exists v w : double,
    exit_status (L := discrete_hera) dgm_unit dgm_two Double.zero =
      Return line_exact v /\
    exit_status (L := discrete_hera) dgm_two dgm_unit Double.zero =
      Return line_exact w /\
    Double.eqb v w = true.
Proof.
  split; [ reflexivity | split; [ reflexivity | ] ].
  destruct (exact_path_symmetric discrete_hera dgm_unit dgm_two
              discrete_exact_symmetric eq_refl eq_refl)
    as (v & w & Hv & Hw & Hvw & _).
  exists v, w. exact (conj Hv (conj Hw Hvw)).
Defined.

(** C7. Under the library's contract (the exact distance of any diagram to
    itself is zero), for every diagram [A], whatever its points, the call
    with [(A, A, 0.0)] returns, from line 18, a value that compares equal to
    [0.0]; the Python call returns that float, whether it is given the same
    list twice or two sequences with the same points. *)
Theorem exact_path_identity (L : Hera) (A : diagram) :
  exact_identity L ->
  exists v : double,
    exit_status A A Double.zero = Return line_exact v /\
    Double.eqb v Double.zero = true /\
    (forall (st : py_store) (o1 o2 : py_object),
       load_vector st o1 = Some A -> load_vector st o2 = Some A ->
       py_bottleneck_distance st (call3 o1 o2 (PyFloat Double.zero)) =
         (PyReturn (PyFloat v), st)).
Proof.
  intros HL.
  destruct (HL A) as (v & Hv & Hz).
  assert (He : exit_status A A Double.zero = Return line_exact v)
    by (rewrite exit_status_zero by reflexivity; now rewrite Hv).
  exists v. repeat split; try assumption.
  intros st o1 o2 H1 H2.
  rewrite (py_call3_eq L st o1 o2 A A) by assumption. now rewrite He.
Qed.

(** The theorem above on the discrete library, at a diagram whose point is
    not finite. *)
Lemma exact_path_identity_witness :
  valid_diagram dgm_nan = false /\
  exists v : double,
    exit_status (L := discrete_hera) dgm_nan dgm_nan Double.zero =
      Return line_exact v /\
    Double.eqb v Double.zero = true.
Proof.
  split; [ reflexivity | ].
  destruct (exact_path_identity discrete_hera dgm_nan
              discrete_exact_identity) as (v & Hv & Hz & _).
  exists v. exact (conj Hv Hz).
Defined.

(** C8. Under the library's contract (empty diagrams are at distance zero),
    the call on two empty diagrams returns, at every tolerance, a value that
    compares equal to [0.0]: from line 18 when the tolerance is zero, from
    line 20 otherwise. The Python call on two empty sequences returns that
    float. *)
Theorem empty_diagrams_distance_zero (L : Hera) (t : double) :
  empty_distance_zero L ->
  exists v : double,
    exit_status [] [] t =
      Return (if Double.eqb t Double.zero then line_exact else line_approx)
        v /\
    Double.eqb v Double.zero = true /\
    (forall (st : py_store) (o1 o2 : py_object),
       load_vector st o1 = Some [] -> load_vector st o2 = Some [] ->
       py_bottleneck_distance st (call3 o1 o2 (PyFloat t)) =
         (PyReturn (PyFloat v), st)).
Proof.
  intros HL. destruct (HL t) as (v & Hv & Hz).
  assert (He : exit_status [] [] t = Return (selected_line t) v)
    by (rewrite exit_status_eq; now rewrite Hv).
  exists v. repeat split; try assumption.
  intros st o1 o2 H1 H2.
  rewrite (py_call3_eq L st o1 o2 [] []) by assumption. now rewrite He.
Qed.

(** The theorem above on the discrete library, at a NaN tolerance. *)
Lemma empty_diagrams_distance_zero_witness :
  exists v : double,
    exit_status (L := discrete_hera) [] [] Double.nan =
      Return line_approx v /\
    Double.eqb v Double.zero = true.
Proof.
  destruct (empty_diagrams_distance_zero discrete_hera Double.nan
              discrete_empty_distance_zero) as (v & Hv & Hz & _).
  exists v. exact (conj Hv Hz).
Defined.

(** ** The model at work *)

(** A library that clears its arguments changes the C++ vectors, not the
    caller's lists; its values and exceptions pass through as they are. *)
Example hostile_exact :
  bottleneck_distance (L := hostile_hera) dgm_unit dgm_two Double.zero =
    (Return line_exact Double.minus_one,
     {| dgm1 := []; dgm2 := []; delta := Double.zero;
        calls := [CallExact dgm_unit dgm_two] |}).
Proof. reflexivity. Qed.

Example hostile_negative_delta :
  exit_status (L := hostile_hera) dgm_unit dgm_two Double.minus_one =
    Throw "epsilon must be positive".
Proof. reflexivity. Qed.

Example hostile_python_call :
  py_bottleneck_distance (L := hostile_hera) sample_store
    (call2 (PyList 0) (PyList 1)) =
    (PyReturn (PyFloat Double.infinity), sample_store).
Proof. reflexivity. Qed.

Example missing_argument :
  py_bottleneck_distance (L := discrete_hera) sample_store
    {| positional := [PyList 0]; keywords := [] |} =
    (PyRaise TypeError, sample_store).
Proof. reflexivity. Qed.

Example delta_given_twice :
  py_bottleneck_distance (L := discrete_hera) sample_store
    {| positional := [PyList 0; PyList 1; PyFloat Double.zero];
       keywords := [("delta", PyFloat Double.zero)] |} =
    (PyRaise TypeError, sample_store).
Proof. reflexivity. Qed.

Example malformed_point :
  py_bottleneck_distance (L := discrete_hera)
    [[PyTuple [PyFloat Double.zero]]]
    (call2 (PyList 0) (PyList 0)) =
    (PyRaise TypeError, [[PyTuple [PyFloat Double.zero]]]).
Proof. reflexivity. Qed.

(** * Further properties of the binding *)

(** ** The tolerances that reach the exact entry point *)


(** ** Keywords *)

Lemma lookup_keyword_none_not_in (name : string)
  (kw : list (string * py_object)) :
  lookup_keyword name kw = None <-> ~ In name (map fst kw).
Proof.
  induction kw as [ | [k v] kw IH]; cbn [lookup_keyword map fst In].
  - tauto.
  - destruct (String.eqb k name) eqn:E.
    + apply String.eqb_eq in E. split; [ discriminate | ].
      intros H. contradiction H. now left.
    + apply String.eqb_neq in E. rewrite IH. tauto.
Qed.

Lemma remove_keyword_absent (name : string)
  (kw : list (string * py_object)) :
  lookup_keyword name kw = None -> remove_keyword name kw = kw.
Proof.
  induction kw as [ | [k v] kw IH]; cbn [lookup_keyword remove_keyword];
    [ reflexivity | ].
  destruct (String.eqb k name); [ discriminate | ].
  intros H. now rewrite IH.
Qed.

Lemma lookup_keyword_remove_none (name other : string)
  (kw : list (string * py_object)) :
  lookup_keyword name kw = None ->
  lookup_keyword name (remove_keyword other kw) = None.
Proof.
  induction kw as [ | [k v] kw IH]; cbn [lookup_keyword remove_keyword];
    [ reflexivity | ].
  destruct (String.eqb k name) eqn:E; [ discriminate | ].
  intros H. destruct (String.eqb k other); cbn [lookup_keyword].
  - now apply IH.
  - rewrite E. now apply IH.
Qed.

Lemma in_remove_keyword (k name : string)
  (kw : list (string * py_object)) :
  In k (map fst (remove_keyword name kw)) <->
  In k (map fst kw) /\ k <> name.
Proof.
  induction kw as [ | [k' v] kw IH]; cbn [remove_keyword map fst In].
  - tauto.
  - destruct (String.eqb k' name) eqn:E.
    + apply String.eqb_eq in E. subst k'. rewrite IH.
      split; [ tauto | ]. intros [[H | H] Hn]; [ congruence | tauto ].
    + apply String.eqb_neq in E. cbn [map fst In]. rewrite IH.
      split; [ | tauto ].
      intros [H | H]; [ subst k'; tauto | tauto ].
Qed.

Lemma remove_keyword_NoDup (name : string)
  (kw : list (string * py_object)) :
  NoDup (map fst kw) -> NoDup (map fst (remove_keyword name kw)).
Proof.
  induction kw as [ | [k v] kw IH]; cbn [remove_keyword map fst];
    [ trivial | ].
  intros H. inversion H as [ | k0 l Hk Hl]; subst.
  destruct (String.eqb k name); [ now apply IH | ].
  cbn [map fst]. constructor; [ | now apply IH ].
  rewrite in_remove_keyword. tauto.
Qed.

Lemma remove_keyword_Permutation (name : string)
  (kw kw' : list (string * py_object)) :
  Permutation kw kw' ->
  Permutation (remove_keyword name kw) (remove_keyword name kw').
Proof.
  induction 1 as [ | [k v] l l' H IH | [k v] [k' v'] l | l l' l'' H1 IH1 H2 IH2];
    cbn [remove_keyword].
  - constructor.
  - destruct (String.eqb k name); [ exact IH | now constructor ].
  - destruct (String.eqb k name), (String.eqb k' name);
      first [ reflexivity | apply perm_swap ].
  - now transitivity (remove_keyword name l').
Qed.

Lemma lookup_keyword_Permutation (name : string)
  (kw kw' : list (string * py_object)) :
  Permutation kw kw' -> NoDup (map fst kw) ->
  lookup_keyword name kw = lookup_keyword name kw'.
Proof.
  induction 1 as [ | [k v] l l' H IH | [k v] [k' v'] l | l l' l'' H1 IH1 H2 IH2];
    cbn [lookup_keyword map fst]; intros Hnd.
  - reflexivity.
  - inversion Hnd; subst. destruct (String.eqb k name); auto.
  - destruct (String.eqb k name) eqn:E, (String.eqb k' name) eqn:E';
      try reflexivity.
    apply String.eqb_eq in E, E'. subst k k'.
    inversion Hnd as [ | x xs Hx Hxs]; subst.
    contradiction Hx. now left.
  - rewrite IH1 by assumption. apply IH2.
    apply (Permutation_NoDup (l := map fst l)); [ | assumption ].
    now apply Permutation_map.
Qed.

(** The binding does not depend on the order of the keywords. *)
Lemma bind_arguments_Permutation (sig : list argument_record) :
  forall (pos : list py_object) (kw kw' : list (string * py_object)),
    Permutation kw kw' -> NoDup (map fst kw) ->
    bind_arguments sig pos kw = bind_arguments sig pos kw'.
Proof.
  induction sig as [ | a sig IH]; intros pos kw kw' Hp Hnd;
    cbn [bind_arguments].
  - destruct pos; [ | reflexivity ].
    destruct kw as [ | x kw].
    + apply Permutation_nil in Hp. now subst kw'.
    + destruct kw' as [ | x' kw']; [ | reflexivity ].
      apply Permutation_sym, Permutation_nil in Hp. discriminate Hp.
  - destruct pos as [ | p pos].
    + rewrite (lookup_keyword_Permutation (arg_name a) kw kw') by assumption.
      destruct (lookup_keyword (arg_name a) kw') as [v | ].
      * rewrite (IH [] (remove_keyword (arg_name a) kw)
                   (remove_keyword (arg_name a) kw')); [ reflexivity | | ].
        -- now apply remove_keyword_Permutation.
        -- now apply remove_keyword_NoDup.
      * destruct (arg_default a); [ | reflexivity ].
        now rewrite (IH [] kw kw').
    + now rewrite (IH pos kw kw').
Qed.

(** X2. The order in which keyword arguments are written does not matter:
    two calls with the same positional arguments and the same keywords (a
    Python call gives each keyword once) do the same. *)
Theorem keyword_order_irrelevant
  (L : Hera) (st : py_store) (pos : list py_object)
  (kw kw' : list (string * py_object)) :
  Permutation kw kw' -> NoDup (map fst kw) ->
  py_bottleneck_distance st {| positional := pos; keywords := kw |} =
  py_bottleneck_distance st {| positional := pos; keywords := kw' |}.
Proof.
  intros Hp Hnd. unfold py_bottleneck_distance. cbn [positional keywords].
  now rewrite (bind_arguments_Permutation signature pos kw kw').
Qed.

(** The theorem above on the two diagrams given by keyword. *)
Lemma keyword_order_irrelevant_witness :
  py_bottleneck_distance (L := discrete_hera) sample_store
    {| positional := [];
       keywords := [("dgm2", PyList 1); ("dgm1", PyList 0)] |} =
  py_bottleneck_distance (L := discrete_hera) sample_store
    {| positional := [];
       keywords := [("dgm1", PyList 0); ("dgm2", PyList 1)] |}.
Proof.
  apply (keyword_order_irrelevant discrete_hera sample_store []).
  - apply perm_swap.
  - cbn [map fst]. constructor.
    + intros [H | []]. discriminate H.
    + constructor; [ intros [] | constructor ].
Defined.

(** An argument given last by position may be given by keyword instead. *)
Lemma bind_arguments_last_by_keyword (sig : list argument_record) :
  forall (pos : list py_object) (o : py_object)
         (kw : list (string * py_object)) (a : argument_record),
    nth_error sig (List.length pos) = Some a ->
    lookup_keyword (arg_name a) kw = None ->
    bind_arguments sig (pos ++ [o]) kw =
    bind_arguments sig pos ((arg_name a, o) :: kw).
Proof.
  induction sig as [ | a0 sig IH]; intros pos o kw a Hn Hk.
  - destruct pos; discriminate Hn.
  - destruct pos as [ | p pos]; cbn [app bind_arguments].
    + cbn in Hn. inversion Hn; subst a0.
      cbn [lookup_keyword remove_keyword].
      rewrite String.eqb_refl.
      now rewrite remove_keyword_absent.
    + cbn in Hn. now rewrite (IH pos o kw a).
Qed.

(** X3. Each parameter can be given by position or by keyword, to the same
    effect: a call whose last positional argument fills the parameter [a]
    does what the call does that gives this argument as keyword [a]
    instead. *)
Theorem positional_or_keyword
  (L : Hera) (st : py_store) (pos : list py_object) (o : py_object)
  (kw : list (string * py_object)) (a : argument_record) :
  nth_error signature (List.length pos) = Some a ->
  lookup_keyword (arg_name a) kw = None ->
  py_bottleneck_distance st
    {| positional := pos ++ [o]; keywords := kw |} =
  py_bottleneck_distance st
    {| positional := pos; keywords := (arg_name a, o) :: kw |}.
Proof.
  intros Hn Hk. unfold py_bottleneck_distance. cbn [positional keywords].
  now rewrite (bind_arguments_last_by_keyword signature pos o kw a).
Qed.

(** The theorem above for the tolerance: [f(A, B, 0.0)] and
    [f(A, B, delta=0.0)]. *)
Lemma positional_or_keyword_witness :
  py_bottleneck_distance (L := discrete_hera) sample_store
    (call3 (PyList 0) (PyList 1) (PyFloat Double.zero)) =
  py_bottleneck_distance (L := discrete_hera) sample_store
    (call2_delta (PyList 0) (PyList 1) (PyFloat Double.zero)).
Proof.
  apply (positional_or_keyword discrete_hera sample_store
           [PyList 0; PyList 1] (PyFloat Double.zero) []
           {| arg_name := "delta";
              arg_default := Some (PyFloat Double.lit_0_01) |}).
  - reflexivity.
  - reflexivity.
Defined.

(** ** Calls that are refused *)

Lemma bind_arguments_surplus (sig : list argument_record) :
  forall (pos : list py_object) (kw : list (string * py_object)),
    (List.length sig < List.length pos)%nat ->
    bind_arguments sig pos kw = None.
Proof.
  induction sig as [ | a sig IH]; intros pos kw Hlen;
    destruct pos as [ | p pos]; cbn in Hlen; try lia;
    cbn [bind_arguments].
  - reflexivity.
  - rewrite IH by lia. reflexivity.
Qed.

Lemma bind_arguments_unknown (k : string) (sig : list argument_record) :
  ~ In k (map arg_name sig) ->
  forall (pos : list py_object) (kw : list (string * py_object)),
    In k (map fst kw) ->
    bind_arguments sig pos kw = None.
Proof.
  induction sig as [ | a sig IH]; intros Hk pos kw Hin;
    cbn [bind_arguments].
  - destruct pos; [ | reflexivity ].
    destruct kw; [ contradiction Hin | reflexivity ].
  - cbn [map In] in Hk.
    assert (Hsig : ~ In k (map arg_name sig)) by tauto.
    assert (Hne : k <> arg_name a) by (intros E; apply Hk; now left).
    destruct pos as [ | p pos].
    + destruct (lookup_keyword (arg_name a) kw) as [v | ].
      * rewrite (IH Hsig); [ reflexivity | ].
        rewrite in_remove_keyword. now split.
      * destruct (arg_default a); [ | reflexivity ].
        now rewrite (IH Hsig).
    + now rewrite (IH Hsig).
Qed.

Lemma bind_arguments_given_twice (sig : list argument_record) :
  NoDup (map arg_name sig) ->
  forall (pos : list py_object) (kw : list (string * py_object))
         (i : nat) (k : string),
    (i < List.length pos)%nat ->
    nth_error (map arg_name sig) i = Some k ->
    In k (map fst kw) ->
    bind_arguments sig pos kw = None.
Proof.
  induction sig as [ | a sig IH]; intros Hnd pos kw i k Hi Hn Hin.
  - destruct i; discriminate Hn.
  - cbn [map] in Hnd. inversion Hnd as [ | x xs Hx Hxs]; subst.
    destruct pos as [ | p pos]; [ cbn in Hi; lia | ].
    cbn [bind_arguments].
    destruct i as [ | i]; cbn in Hn.
    + inversion Hn; subst k.
      now rewrite (bind_arguments_unknown (arg_name a) sig Hx).
    + cbn in Hi. rewrite (IH Hxs pos kw i k); [ reflexivity | lia | | ];
        assumption.
Qed.

Lemma bind_arguments_missing (sig : list argument_record) :
  forall (pos : list py_object) (kw : list (string * py_object))
         (i : nat) (a : argument_record),
    (List.length pos <= i)%nat ->
    nth_error sig i = Some a ->
    arg_default a = None ->
    lookup_keyword (arg_name a) kw = None ->
    bind_arguments sig pos kw = None.
Proof.
  induction sig as [ | a0 sig IH]; intros pos kw i a Hi Hn Hd Hk.
  - destruct i; discriminate Hn.
  - cbn [bind_arguments]. destruct pos as [ | p pos].
    + destruct i as [ | i]; cbn in Hn.
      * inversion Hn; subst a0. now rewrite Hk, Hd.
      * destruct (lookup_keyword (arg_name a0) kw) as [v | ].
        -- rewrite (IH [] (remove_keyword (arg_name a0) kw) i a);
             [ reflexivity | cbn; lia | assumption | assumption | ].
           now apply lookup_keyword_remove_none.
        -- destruct (arg_default a0); [ | reflexivity ].
           rewrite (IH [] kw i a); [ reflexivity | cbn; lia | | | ];
             assumption.
    + destruct i as [ | i]; [ cbn in Hi; lia | ].
      cbn in Hi, Hn.
      rewrite (IH pos kw i a); [ reflexivity | lia | | | ]; assumption.
Qed.

Lemma parameter_names_NoDup : NoDup parameter_names.
Proof.
  unfold parameter_names; cbn [map signature arg_name].
  repeat constructor; cbn [In]; intros H;
    repeat (destruct H as [H | H]; [ discriminate H | ]); exact H.
Qed.

Lemma py_unbound (L : Hera) (st : py_store) (a : py_arguments) :
  bind_arguments signature (positional a) (keywords a) = None ->
  py_bottleneck_distance st a = (PyRaise TypeError, st).
Proof. intros H. unfold py_bottleneck_distance. now rewrite H. Qed.

(** X4. A call with more than three positional arguments, with a keyword
    that names no parameter, or with a parameter given both by position and
    by keyword raises [TypeError], whatever the library. *)
Theorem surplus_arguments_rejected
  (L : Hera) (st : py_store) (a : py_arguments) :
  (3 < List.length (positional a))%nat \/
  (exists k : string,
     In k (map fst (keywords a)) /\ ~ In k parameter_names) \/
  (exists (i : nat) (k : string),
     (i < List.length (positional a))%nat /\
     nth_error parameter_names i = Some k /\
     In k (map fst (keywords a))) ->
  py_bottleneck_distance st a = (PyRaise TypeError, st).
Proof.
  intros [Hlen | [(k & Hin & Hk) | (i & k & Hi & Hn & Hin)]];
    apply py_unbound.
  - apply bind_arguments_surplus. exact Hlen.
  - now apply (bind_arguments_unknown k signature Hk).
  - now apply (bind_arguments_given_twice signature parameter_names_NoDup
                 (positional a) (keywords a) i k).
Qed.

(** The theorem above on a call that gives [delta] twice. *)
Lemma surplus_arguments_rejected_witness :
  py_bottleneck_distance (L := discrete_hera) sample_store
    {| positional := [PyList 0; PyList 1; PyFloat Double.zero];
       keywords := [("delta", PyFloat Double.zero)] |} =
  (PyRaise TypeError, sample_store).
Proof.
  apply (surplus_arguments_rejected discrete_hera sample_store
           {| positional := [PyList 0; PyList 1; PyFloat Double.zero];
              keywords := [("delta", PyFloat Double.zero)] |}).
  right; right. exists 2%nat, "delta".
  split; [ cbn; lia | split; [ reflexivity | now left ] ].
Defined.

(** X5. A call that gives one of the two diagrams neither by position nor
    by keyword raises [TypeError]: only [delta] has a default. *)
Theorem missing_diagram_rejected
  (L : Hera) (st : py_store) (a : py_arguments) :
  (positional a = [] /\ lookup_keyword "dgm1" (keywords a) = None) \/
  ((List.length (positional a) <= 1)%nat /\
   lookup_keyword "dgm2" (keywords a) = None) ->
  py_bottleneck_distance st a = (PyRaise TypeError, st).
Proof.
  intros [[Hpos Hk] | [Hlen Hk]]; apply py_unbound.
  - apply (bind_arguments_missing signature (positional a) (keywords a) 0%nat
             {| arg_name := "dgm1"; arg_default := None |});
      [ rewrite Hpos; cbn; lia | reflexivity | reflexivity | exact Hk ].
  - apply (bind_arguments_missing signature (positional a) (keywords a) 1%nat
             {| arg_name := "dgm2"; arg_default := None |});
      [ exact Hlen | reflexivity | reflexivity | exact Hk ].
Qed.

(** The theorem above on a call with one diagram and a tolerance. *)
Lemma missing_diagram_rejected_witness :
  py_bottleneck_distance (L := discrete_hera) sample_store
    {| positional := [PyList 0];
       keywords := [("delta", PyFloat Double.zero)] |} =
  (PyRaise TypeError, sample_store).
Proof.
  apply (missing_diagram_rejected discrete_hera sample_store
           {| positional := [PyList 0];
              keywords := [("delta", PyFloat Double.zero)] |}).
  right. split; [ cbn; lia | reflexivity ].
Defined.

(** ** What a Python call can come to *)


(** ** Reading the diagrams *)





Lemma load_items_rejects (st : py_store) (items : list py_object)
  (o : py_object) :
  In o items -> load_pair st o = None -> load_items st items = None.
Proof.
  induction items as [ | o' items IH]; intros Hin Ho; [ contradiction Hin | ].
  cbn [load_items]. destruct Hin as [-> | Hin].
  - now rewrite Ho.
  - rewrite (IH Hin Ho). now destruct (load_pair st o').
Qed.

Lemma load_pair_rejects (st : py_store) (o : py_object) :
  as_sequence st o = None \/
  (exists xs : list py_object,
     as_sequence st o = Some xs /\ List.length xs <> 2%nat) \/
  (exists x y : py_object,
     as_sequence st o = Some [x; y] /\
     (load_double x = None \/ load_double y = None)) ->
  load_pair st o = None.
Proof.
  unfold load_pair.
  intros [H | [(xs & H & Hlen) | (x & y & H & Hxy)]]; rewrite H.
  - reflexivity.
  - destruct xs as [ | x [ | y [ | z xs]]]; try reflexivity.
    now contradiction Hlen.
  - destruct Hxy as [Hx | Hy].
    + now rewrite Hx.
    + rewrite Hy. now destruct (load_double x).
Qed.

(** X8. In every call, however its arguments are given, if the object bound
    to [dgm1] or to [dgm2] is no sequence, or has an element which is not a
    pair of floats (no sequence, a sequence of another length than two, or
    one with a coordinate that is no float), the call raises [TypeError],
    whatever the library and the other arguments. *)
Theorem malformed_diagram_rejected
  (L : Hera) (st : py_store) (a : py_arguments) (o1 o2 o3 : py_object) :
  bind_arguments signature (positional a) (keywords a) =
    Some [o1; o2; o3] ->
  (exists dgm : py_object,
     (dgm = o1 \/ dgm = o2) /\
     (as_sequence st dgm = None \/
      exists (items : list py_object) (o : py_object),
        as_sequence st dgm = Some items /\
        In o items /\
        (as_sequence st o = None \/
         (exists xs : list py_object,
            as_sequence st o = Some xs /\ List.length xs <> 2%nat) \/
         (exists x y : py_object,
            as_sequence st o = Some [x; y] /\
            (load_double x = None \/ load_double y = None))))) ->
  py_bottleneck_distance st a = (PyRaise TypeError, st).
Proof.
  intros Hbind (dgm & Hdgm & Hbad).
  assert (Hload : load_vector st dgm = None).
  { unfold load_vector.
    destruct Hbad as [H | (items & o & H & Hin & Ho)]; rewrite H.
    - reflexivity.
    - apply (load_items_rejects st items o Hin).
      now apply load_pair_rejects. }
  unfold py_bottleneck_distance. rewrite Hbind.
  destruct Hdgm as [-> | ->]; rewrite Hload.
  - reflexivity.
  - now destruct (load_vector st o1).
Qed.

(** The theorem above on a call that gives the second diagram by keyword
    and no tolerance; the only point of that diagram has one coordinate. *)
Lemma malformed_diagram_rejected_witness :
  py_bottleneck_distance (L := discrete_hera) sample_store
    {| positional := [PyList 0];
       keywords := [("dgm2", PyTuple [PyTuple [PyFloat Double.zero]])] |} =
  (PyRaise TypeError, sample_store).
Proof.
  apply (malformed_diagram_rejected discrete_hera sample_store
           {| positional := [PyList 0];
              keywords :=
                [("dgm2", PyTuple [PyTuple [PyFloat Double.zero]])] |}
           (PyList 0) (PyTuple [PyTuple [PyFloat Double.zero]])
           (PyFloat Double.lit_0_01)).
  - reflexivity.
  - exists (PyTuple [PyTuple [PyFloat Double.zero]]).
    split; [ now right | right ].
    exists [PyTuple [PyFloat Double.zero]], (PyTuple [PyFloat Double.zero]).
    split; [ reflexivity | split; [ now left | ] ].
    right; left. exists [PyFloat Double.zero].
    split; [ reflexivity | cbn; lia ].
Defined.
